(** * Gate extractor: [_bmad/core/verification/extract-gates.py]

    A shallow embedding of the script that reads a story document, walks
    to [verification.gates] and prints one [name|type|command|expected_exit]
    text per gate, together with the properties its specification states.

    The script is Python: the parsed document is a dynamically typed tree,
    lookups and conversions to text either succeed or raise, and one
    [try]/[except] block turns every exception of the extraction into a
    diagnostic.  The model keeps all of it: a [value] type for the tree,
    an [outcome] for what may raise, a console monad [Comp] for the
    control flow, and the handlers of the source in their order.  What
    the script takes from its surroundings (the files, the parser, the
    settings of the interpreter and of its output stream) is a [World]. *)

From Stdlib Require Import String Ascii List ZArith NArith Lia Bool.
From Stdlib Require Import Permutation DecimalString DecimalZ.
Import ListNotations.

#[local] Set Warnings "-register-all".
Local Open Scope list_scope.
Local Open Scope string_scope.

(** ** Python values produced by [yaml.safe_load] *)

(** The hashable values: null, booleans, integers, floats, strings, byte
    strings (the tag binary), dates and date-times (the tag timestamp).
    A [str] is held as the UTF-8 encoding of its code points, a lone
    surrogate included; a byte string as its bytes.  A float is carried
    by its [repr], a date or a date-time by its [str] and its [repr]:
    the program only tests them for truth and prints them. *)
Inductive scalar : Type :=
| SNone
| SBool (b : bool)
| SInt (n : Z)
| SFloat (repr : string)
| SStr (s : string)
| SBytes (b : string)
| SDate (text repr : string)
| SDatetime (text repr : string).

(** The document tree, a finite one: a document in which an alias points
    back to a node that contains it is no tree and is left out.  A
    mapping is a Python [dict]: its entries in insertion order under
    hashable keys.  A [set] (the tag set) holds hashable elements, listed
    in the order of insertion; the order in which it is iterated is the
    interpreter's.  Tuples are the pairs of the tags omap and pairs. *)
Inductive value : Type :=
| VScalar (x : scalar)
| VList (items : list value)
| VTuple (items : list value)
| VDict (entries : list (scalar * value))
| VSet (elements : list scalar).

Abbreviation VNone := (VScalar SNone).
Abbreviation VBool b := (VScalar (SBool b)).
Abbreviation VInt n := (VScalar (SInt n)).
Abbreviation VFloat r := (VScalar (SFloat r)).
Abbreviation VStr s := (VScalar (SStr s)).
Abbreviation VBytes b := (VScalar (SBytes b)).

(** ** Exceptions and outcomes *)

(** The exceptions the program can meet.  [SystemExit] derives from
    [BaseException] only; all the others derive from [Exception] and
    carry [str(e)], except [FileNotFoundError], whose text the program
    never reads.  [OtherException] stands for any further [Exception]
    subclass raised while the file is opened or read (an [OSError] that
    is not [FileNotFoundError], a [UnicodeDecodeError]). *)
Inductive exn : Type :=
| SystemExit (code : Z)
| FileNotFoundError
| YAMLError (msg : string)
| AttributeError (msg : string)
| TypeError (msg : string)
| ValueError (msg : string)
| UnicodeEncodeError (msg : string)
| OtherException (msg : string).

(** What evaluating an expression gives: a value, or an exception. *)
Inductive outcome (A : Type) : Type :=
| Returns (a : A)
| Raises (e : exn).
Arguments Returns {A} a.
Arguments Raises {A} e.

Definition and_then {A B} (o : outcome A) (k : A -> outcome B) : outcome B :=
  match o with
  | Returns a => k a
  | Raises e => Raises e
  end.

Notation "x <~ o ;; k" := (and_then o (fun x => k))
  (at level 61, o at next level, right associativity).

(** The outcomes of a list of evaluations made from left to right: the
    first exception stops them. *)
Fixpoint collect {A} (l : list (outcome A)) : outcome (list A) :=
  match l with
  | [] => Returns []
  | o :: rest => a <~ o ;; r <~ collect rest ;; Returns (a :: r)
  end.

(** ** The surroundings of a run *)

(** What [open(story_file, 'r', encoding='utf-8')] does for a path. *)
Inductive open_outcome : Type :=
| Opened (content : string)
| NoSuchFile
| OpenFails (msg : string).

(** What [yaml.safe_load] does for the text of an opened file: a
    document, a [yaml.YAMLError], or another exception raised while the
    stream is read or the document built. *)
Inductive load_outcome : Type :=
| Loaded (data : value)
| Malformed (msg : string)
| LoadFails (msg : string).

(** The files, the parser and the interpreter of one run. *)
Record World : Type := {
  open_file : string -> open_outcome;
  safe_load : string -> load_outcome;
  (** [chr(cp).isprintable()] for a code point above 127: the Unicode
      tables of the interpreter *)
  isprintable : N -> bool;
  (** [sys.get_int_max_str_digits()], 0 when conversions are unlimited *)
  int_max_str_digits : N;
  (** the order in which a set built from the given elements is
      iterated: it follows the hashes, which change with the hash seed *)
  set_order : list scalar -> list scalar;
  set_order_perm : forall l, Permutation l (set_order l);
  (** [None] when [sys.stdout] can encode a text, else the message of the
      [UnicodeEncodeError] its encoder raises (a failure of the pipe or
      file behind the stream is left out) *)
  stdout_refuses : string -> option string;
  (** the text the interpreter writes on [sys.stderr] for an exception
      nobody caught *)
  excepthook : exn -> string
}.

(** ** Python's conversions of values *)

Module Py.

(** The name of the type of a value, as the interpreter's messages
    print it. *)
Definition type_name (v : value) : string :=
  match v with
  | VScalar SNone => "NoneType"
  | VScalar (SBool _) => "bool"
  | VScalar (SInt _) => "int"
  | VScalar (SFloat _) => "float"
  | VScalar (SStr _) => "str"
  | VScalar (SBytes _) => "bytes"
  | VScalar (SDate _ _) => "datetime.date"
  | VScalar (SDatetime _ _) => "datetime.datetime"
  | VList _ => "list"
  | VTuple _ => "tuple"
  | VDict _ => "dict"
  | VSet _ => "set"
  end.

(** [bool(v)]: the test behind [if not data]. *)
Definition truthy (v : value) : bool :=
  match v with
  | VScalar SNone => false
  | VScalar (SBool b) => b
  | VScalar (SInt n) => negb (Z.eqb n 0)
  | VScalar (SFloat r) => negb (String.eqb r "0.0" || String.eqb r "-0.0")
  | VScalar (SStr s) => negb (String.eqb s "")
  | VScalar (SBytes b) => negb (String.eqb b "")
  | VScalar (SDate _ _) => true
  | VScalar (SDatetime _ _) => true
  | VList l => match l with [] => false | _ => true end
  | VTuple l => match l with [] => false | _ => true end
  | VDict d => match d with [] => false | _ => true end
  | VSet l => match l with [] => false | _ => true end
  end.

(** *** Integers *)

(** The decimal digits of a natural number. *)
Definition decimal (n : N) : string :=
  NilZero.string_of_uint (N.to_uint n).

(** The message of the [ValueError] of a conversion beyond the limit. *)
Definition exceeds_limit (limit : N) : string :=
  "Exceeds the limit (" ++ decimal limit
    ++ " digits) for integer string conversion; "
    ++ "use sys.set_int_max_str_digits() to increase the limit".

(** [str(n)] for an [int]: decimal digits, a leading [-] when negative;
    when a limit is set and the number has more digits than it allows,
    a [ValueError]. *)
Definition str_int (w : World) (n : Z) : outcome string :=
  let limit := int_max_str_digits w in
  let digits := NilZero.string_of_int (Z.to_int (Z.abs n)) in
  if N.ltb 0 limit && N.ltb limit (N.of_nat (String.length digits))
  then Raises (ValueError (exceeds_limit limit))
  else Returns (NilZero.string_of_int (Z.to_int n)).

(** *** Texts *)

(** The code points of a [str], from its UTF-8 encoding: [need] bytes of
    the current code point are still to come and [acc] holds its bits
    read so far (a text that ends inside a code point ends with what was
    read of it). *)
Fixpoint decode (s : string) (need : nat) (acc : N) : list N :=
  match s with
  | EmptyString => match need with 0 => [] | _ => [acc] end
  | String b rest =>
      let n := N_of_ascii b in
      match need with
      | 0 =>
          if N.ltb n 128 then n :: decode rest 0 0
          else if N.ltb n 224 then decode rest 1 (n mod 32)
          else if N.ltb n 240 then decode rest 2 (n mod 16)
          else decode rest 3 (n mod 8)
      | 1 => (acc * 64 + n mod 64)%N :: decode rest 0 0
      | S k => decode rest k (acc * 64 + n mod 64)%N
      end
  end.

Definition code_points (s : string) : list N := decode s 0 0.

Definition byte (n : N) : string := String (ascii_of_N n) "".

(** The UTF-8 encoding of a code point. *)
Definition encode (cp : N) : string :=
  (if N.ltb cp 128 then byte cp
   else if N.ltb cp 2048 then
     byte (192 + cp / 64) ++ byte (128 + cp mod 64)
   else if N.ltb cp 65536 then
     byte (224 + cp / 4096) ++ byte (128 + (cp / 64) mod 64)
       ++ byte (128 + cp mod 64)
   else
     byte (240 + cp / 262144) ++ byte (128 + (cp / 4096) mod 64)
       ++ byte (128 + (cp / 64) mod 64) ++ byte (128 + cp mod 64))%N.

Definition hex_digit (n : N) : ascii :=
  match n with
  | 0 => "0" | 1 => "1" | 2 => "2" | 3 => "3" | 4 => "4" | 5 => "5"
  | 6 => "6" | 7 => "7" | 8 => "8" | 9 => "9" | 10 => "a" | 11 => "b"
  | 12 => "c" | 13 => "d" | 14 => "e" | _ => "f"
  end%N%char.

(** The last [width] hexadecimal digits of a number. *)
Fixpoint hex (width : nat) (n : N) : string :=
  match width with
  | 0 => ""
  | S k => hex k (n / 16) ++ String (hex_digit (n mod 16)) ""
  end.

Fixpoint contains_char (c : ascii) (s : string) : bool :=
  match s with
  | EmptyString => false
  | String a rest => Ascii.eqb a c || contains_char c rest
  end.

(** The double quote character. *)
Definition dquote : ascii := ascii_of_nat 34.

(** The quote [repr] puts around a text: the single one, unless the text
    holds a single quote and no double quote. *)
Definition quote_for (s : string) : ascii :=
  if contains_char "'" s && negb (contains_char dquote s)
  then dquote else "'"%char.

(** The escapes common to [repr] of a [str] and of a byte string: the
    quote, the backslash, tab, line feed, carriage return, and the other
    control characters. *)
Definition escape_ascii (q : ascii) (n : N) : option string :=
  if N.eqb n (N_of_ascii q) then Some (String "\" (String q ""))
  else if N.eqb n 92 then Some "\\"
  else if N.eqb n 9 then Some "\t"
  else if N.eqb n 10 then Some "\n"
  else if N.eqb n 13 then Some "\r"
  else if N.ltb n 32 || N.eqb n 127 then Some ("\x" ++ hex 2 n)
  else if N.ltb n 127 then Some (byte n)
  else None.

(** One code point of [repr(s)] for a [str]: above 127, a printable
    character stands for itself and another one is written by its
    number. *)
Definition escape_code_point (w : World) (q : ascii) (cp : N) : string :=
  match escape_ascii q cp with
  | Some text => text
  | None =>
      if isprintable w cp then encode cp
      else if N.ltb cp 256 then "\x" ++ hex 2 cp
      else if N.ltb cp 65536 then "\u" ++ hex 4 cp
      else "\U" ++ hex 8 cp
  end.

(** [repr(s)] for a [str]. *)
Definition repr_str (w : World) (s : string) : string :=
  let q := quote_for s in
  String q (String.concat "" (map (escape_code_point w q) (code_points s))
              ++ String q "").

(** One byte of [repr(b)] for a byte string: every byte above 126 is
    written by its number. *)
Definition escape_byte (q : ascii) (b : ascii) : string :=
  match escape_ascii q (N_of_ascii b) with
  | Some text => text
  | None => "\x" ++ hex 2 (N_of_ascii b)
  end.

(** [repr(b)] for a byte string. *)
Definition repr_bytes (b : string) : string :=
  let q := quote_for b in
  String "b" (String q (String.concat "" (map (escape_byte q) (list_ascii_of_string b))
                          ++ String q "")).

Definition join (sep : string) (l : list string) : string :=
  String.concat sep l.

(** *** Values *)

Definition repr_scalar (w : World) (x : scalar) : outcome string :=
  match x with
  | SNone => Returns "None"
  | SBool true => Returns "True"
  | SBool false => Returns "False"
  | SInt n => str_int w n
  | SFloat r => Returns r
  | SStr s => Returns (repr_str w s)
  | SBytes b => Returns (repr_bytes b)
  | SDate _ r => Returns r
  | SDatetime _ r => Returns r
  end.

(** [repr(v)]: the elements of a container are converted from left to
    right, a set in the order of its iteration. *)
Fixpoint repr (w : World) (v : value) : outcome string :=
  match v with
  | VScalar x => repr_scalar w x
  | VList l =>
      texts <~ collect (map (repr w) l) ;;
      Returns ("[" ++ join ", " texts ++ "]")
  | VTuple l =>
      texts <~ collect (map (repr w) l) ;;
      match texts with
      | [text] => Returns ("(" ++ text ++ ",)")
      | _ => Returns ("(" ++ join ", " texts ++ ")")
      end
  | VDict d =>
      texts <~ collect (map (fun '(k, x) =>
                               key <~ repr_scalar w k ;;
                               text <~ repr w x ;;
                               Returns (key ++ ": " ++ text)) d) ;;
      Returns ("{" ++ join ", " texts ++ "}")
  | VSet l =>
      match l with
      | [] => Returns "set()"
      | _ =>
          texts <~ collect (map (repr_scalar w) (set_order w l)) ;;
          Returns ("{" ++ join ", " texts ++ "}")
      end
  end.

(** [str(v)], which is what an f-string field [{v}] interpolates. *)
Definition str (w : World) (v : value) : outcome string :=
  match v with
  | VScalar (SStr s) => Returns s
  | VScalar (SDate text _) => Returns text
  | VScalar (SDatetime text _) => Returns text
  | _ => repr w v
  end.

(** *** Mappings *)

(** [k == key] for a dict key [k] and a [str] literal [key]. *)
Definition key_is (key : string) (k : scalar) : bool :=
  match k with
  | SStr s => String.eqb s key
  | _ => false
  end.

(** Lookup of a [str] key in the entries of a dict. *)
Fixpoint dict_lookup (d : list (scalar * value)) (key : string) : option value :=
  match d with
  | [] => None
  | (k, v) :: rest => if key_is key k then Some v else dict_lookup rest key
  end.

End Py.

(** ** The console and the [Comp] monad *)

(** The line feed [print] ends a text with. *)
Definition nl : string := String (ascii_of_nat 10) "".

(** The two output streams, as the text written to each so far.  The
    diagnostic stream is the text handed to it: its encoder escapes what
    it cannot represent and never raises. *)
Record console : Type := Console {
  stdout : string;
  stderr : string
}.

Definition empty_console : console := Console "" "".

(** A computation: it reads and extends the console, and returns a value
    or raises. *)
Definition Comp (A : Type) : Type := console -> outcome A * console.

Definition ret {A} (a : A) : Comp A := fun c => (Returns a, c).

Definition raise {A} (e : exn) : Comp A := fun c => (Raises e, c).

Definition bind {A B} (m : Comp A) (k : A -> Comp B) : Comp B :=
  fun c =>
    match m c with
    | (Returns a, c') => k a c'
    | (Raises e, c') => (Raises e, c')
    end.

(** An evaluation that does not touch the console. *)
Definition eval {A} (o : outcome A) : Comp A := fun c => (o, c).

Notation "x <- m ;; k" := (bind m (fun x => k))
  (at level 61, m at next level, right associativity).
Notation "m ;;; k" := (bind m (fun _ => k))
  (at level 61, right associativity).

(** [print(text)]: the text and a line feed go to standard output,
    unless the encoder of the stream refuses the text, in which case
    nothing of it is written. *)
Definition print (w : World) (text : string) : Comp unit :=
  fun c =>
    match stdout_refuses w text with
    | Some msg => (Raises (UnicodeEncodeError msg), c)
    | None => (Returns tt, Console (stdout c ++ text ++ nl) (stderr c))
    end.

(** [print(text, file=sys.stderr)]. *)
Definition print_err (text : string) : Comp unit :=
  fun c => (Returns tt, Console (stdout c) (stderr c ++ text ++ nl)).

(** [try: body except ...: handler]; a handler answers [None] for an
    exception no clause matches, which then propagates. *)
Definition try_except {A} (body : Comp A) (handler : exn -> option (Comp A))
  : Comp A :=
  fun c =>
    match body c with
    | (Returns a, c') => (Returns a, c')
    | (Raises e, c') =>
        match handler e with
        | Some h => h c'
        | None => (Raises e, c')
        end
    end.

(** [obj.get(key, default)]: a dict answers the bound value or the
    default; no other value of a document has a [get] attribute. *)
Definition py_get (obj : value) (key : string) (default : value) : Comp value :=
  match obj with
  | VDict d =>
      match Py.dict_lookup d key with
      | Some v => ret v
      | None => ret default
      end
  | _ => raise (AttributeError
                  ("'" ++ Py.type_name obj ++ "' object has no attribute 'get'"))
  end.

(** The characters of a [str] and the bytes of a byte string. *)
Definition chars (s : string) : list value :=
  map (fun cp => VStr (Py.encode cp)) (Py.code_points s).

Definition bytes (b : string) : list value :=
  map (fun a => VInt (Z.of_N (N_of_ascii a))) (list_ascii_of_string b).

(** The items [for x in obj] runs over: the elements of a list, of a
    tuple or of a set, the keys of a dict, the characters of a str, the
    bytes of a byte string; anything else is not iterable. *)
Definition py_iter (w : World) (obj : value) : Comp (list value) :=
  match obj with
  | VList l => ret l
  | VTuple l => ret l
  | VDict d => ret (map (fun kv => VScalar (fst kv)) d)
  | VSet l => ret (map VScalar (set_order w l))
  | VScalar (SStr s) => ret (chars s)
  | VScalar (SBytes b) => ret (bytes b)
  | _ => raise (TypeError ("'" ++ Py.type_name obj ++ "' object is not iterable"))
  end.

Definition py_open (w : World) (path : string) : Comp string :=
  match open_file w path with
  | Opened content => ret content
  | NoSuchFile => raise FileNotFoundError
  | OpenFails msg => raise (OtherException msg)
  end.

Definition yaml_safe_load (w : World) (f : string) : Comp value :=
  match safe_load w f with
  | Loaded data => ret data
  | Malformed msg => raise (YAMLError msg)
  | LoadFails msg => raise (OtherException msg)
  end.

(** ** The program *)

(** The f-string of line 31,
    [f"{name}|{gate_type}|{command}|{expected_exit}"]: the four fields
    are converted from left to right, then joined. *)
Definition format_gate (w : World) (name gate_type command expected_exit : value)
  : outcome string :=
  a <~ Py.str w name ;;
  b <~ Py.str w gate_type ;;
  c <~ Py.str w command ;;
  d <~ Py.str w expected_exit ;;
  Returns (a ++ "|" ++ b ++ "|" ++ c ++ "|" ++ d).

(** The loop of lines 24-31, [results] being the list built so far. *)
Fixpoint for_gates (w : World) (gates : list value) (results : list string)
  : Comp (list string) :=
  match gates with
  | [] => ret results
  | gate :: rest =>
      name <- py_get gate "name" (VStr "Unknown") ;;
      gate_type <- py_get gate "type" (VStr "command") ;;
      command <- py_get gate "command" (VStr "") ;;
      expected_exit <- py_get gate "expected_exit" (VInt 0) ;;
      line <- eval (format_gate w name gate_type command expected_exit) ;;
      for_gates w rest (results ++ [line])%list
  end.

(** The [try] block of [extract_gates], lines 14-33. *)
Definition extract_gates_body (w : World) (story_file : string)
  : Comp (list string) :=
  f <- py_open w story_file ;;
  data <- yaml_safe_load w f ;;
  if negb (Py.truthy data) then ret []
  else
    verification <- py_get data "verification" (VDict []) ;;
    gates <- py_get verification "gates" (VList []) ;;
    items <- py_iter w gates ;;
    for_gates w items [].

(** The [except] clauses of lines 35-43, in their order; the last one
    prints [str(e)] of any other [Exception].  [SystemExit] is no
    [Exception]: no clause matches it. *)
Definition extract_gates_handler (story_file : string) (e : exn)
  : option (Comp (list string)) :=
  match e with
  | FileNotFoundError =>
      Some (print_err ("Error: File not found: " ++ story_file) ;;; ret [])
  | YAMLError msg =>
      Some (print_err ("Error: Invalid YAML: " ++ msg) ;;; ret [])
  | AttributeError msg | TypeError msg | ValueError msg
  | UnicodeEncodeError msg | OtherException msg =>
      Some (print_err ("Error: " ++ msg) ;;; ret [])
  | SystemExit _ => None
  end.

Definition extract_gates (w : World) (story_file : string) : Comp (list string) :=
  try_except (extract_gates_body w story_file)
             (extract_gates_handler story_file).

(** [for gate in gates: print(gate)]. *)
Fixpoint print_all (w : World) (lines : list string) : Comp unit :=
  match lines with
  | [] => ret tt
  | line :: rest => print w line ;;; print_all w rest
  end.

Definition sys_exit (code : Z) : Comp unit := raise (SystemExit code).

Definition usage : string := "Usage: python extract-gates.py <story-file>".

(** [main], [argv] being [sys.argv] (the script name first). *)
Definition main (w : World) (argv : list string) : Comp unit :=
  if (List.length argv <? 2)%nat then
    print_err usage ;;; sys_exit 1
  else
    let story_file := nth 1 argv "" in
    gates <- extract_gates w story_file ;;
    print_all w gates.

(** What the operating system sees of a run. *)
Record process_result : Type := Process {
  exit_status : Z;
  output : string;
  diagnostics : string
}.

(** A run of the script from an empty console.  A normal return exits
    with 0, [sys.exit(n)] with [n], and an exception nobody caught with 1
    after the interpreter has written its traceback. *)
Definition run_process (w : World) (argv : list string) : process_result :=
  match main w argv empty_console with
  | (Returns _, c) => Process 0 (stdout c) (stderr c)
  | (Raises (SystemExit code), c) => Process code (stdout c) (stderr c)
  | (Raises e, c) => Process 1 (stdout c) (stderr c ++ excepthook w e)
  end.

(** ** Sample worlds *)

(** The Unicode tables for the Latin-1 range, which is as far as the
    sample documents go: above 127, the printable characters are those
    from 161 on, the soft hyphen 173 excepted. *)
Definition latin1_printable (cp : N) : bool :=
  (N.leb 161 cp && N.ltb cp 256 && negb (N.eqb cp 173))%N.

Definition is_surrogate (cp : N) : bool :=
  (N.leb 55296 cp && N.ltb cp 57344)%N.

(** The length of the run of surrogates a text starts with. *)
Fixpoint surrogate_run (cps : list N) : N :=
  match cps with
  | [] => 0
  | cp :: rest => if is_surrogate cp then 1 + surrogate_run rest else 0
  end%N.

(** The first surrogate of a text, its position and the length of the
    run of surrogates it starts. *)
Fixpoint first_surrogate (cps : list N) (position : N) : option (N * N * N) :=
  match cps with
  | [] => None
  | cp :: rest =>
      if is_surrogate cp then Some (cp, position, surrogate_run cps)
      else first_surrogate rest (position + 1)%N
  end.

(** The strict UTF-8 encoder of a standard output: it refuses a text that
    holds a surrogate. *)
Definition utf8_refuses (text : string) : option string :=
  match first_surrogate (Py.code_points text) 0 with
  | None => None
  | Some (cp, position, run) =>
      Some (if N.eqb run 1 then
              "'utf-8' codec can't encode character '\u" ++ Py.hex 4 cp
                ++ "' in position " ++ Py.decimal position
                ++ ": surrogates not allowed"
            else
              "'utf-8' codec can't encode characters in position "
                ++ Py.decimal position ++ "-"
                ++ Py.decimal (position + run - 1)
                ++ ": surrogates not allowed")
  end.

(** The last line of a traceback. *)
Definition exn_line (e : exn) : string :=
  match e with
  | SystemExit code => ""
  | FileNotFoundError => "FileNotFoundError"
  | YAMLError msg => "yaml.YAMLError: " ++ msg
  | AttributeError msg => "AttributeError: " ++ msg
  | TypeError msg => "TypeError: " ++ msg
  | ValueError msg => "ValueError: " ++ msg
  | UnicodeEncodeError msg => "UnicodeEncodeError: " ++ msg
  | OtherException msg => "Exception: " ++ msg
  end.

(** The traceback of an exception that leaves [main] through the
    [print] of line 54, the script being run as [extract-gates.py]. *)
Definition traceback (e : exn) : string :=
  let file := "  File " ++ String Py.dquote "extract-gates.py"
                ++ String Py.dquote "" in
  "Traceback (most recent call last):" ++ nl
    ++ file ++ ", line 57, in <module>" ++ nl
    ++ "    main()" ++ nl
    ++ file ++ ", line 54, in main" ++ nl
    ++ "    print(gate)" ++ nl
    ++ exn_line e ++ nl.

(** Two orders of iteration of a set: that of insertion, and the
    reverse one. *)
Definition keep_order (l : list scalar) : list scalar := l.


(** A world in which every path opens as [opened] and every text loads
    as [loaded], under an interpreter with the default limit of 4300
    digits and a standard output in strict UTF-8. *)
Definition world_with (opened : open_outcome) (loaded : load_outcome) : World :=
  {| open_file := fun _ => opened;
     safe_load := fun _ => loaded;
     isprintable := latin1_printable;
     int_max_str_digits := 4300;
     set_order := keep_order;
     set_order_perm := fun l => Permutation_refl l;
     stdout_refuses := utf8_refuses;
     excepthook := traceback |}.

(** The same, with one file, [story.yaml], that parses to [doc]. *)
Definition world_of (doc : value) : World :=
  {| open_file := fun path =>
       if String.eqb path "story.yaml" then Opened "text" else NoSuchFile;
     safe_load := fun _ => Loaded doc;
     isprintable := latin1_printable;
     int_max_str_digits := 4300;
     set_order := keep_order;
     set_order_perm := fun l => Permutation_refl l;
     stdout_refuses := utf8_refuses;
     excepthook := traceback |}.


(** A document whose [verification.gates] is [gates]. *)
Definition story (gates : value) : value :=
  VDict [(SStr "title", VStr "Story");
         (SStr "verification", VDict [(SStr "gates", gates)])].

Definition gate_build : value := VDict [(SStr "name", VStr "Build")].

Definition gate_lint : value :=
  VDict [(SStr "name", VStr "Lint"); (SStr "type", VStr "script");
         (SStr "command", VStr "run-lint.sh"); (SStr "expected_exit", VInt 2)].


(** The code point U+D800 alone, which no UTF-8 encoder accepts. *)
Definition lone_surrogate : string := Py.encode 55296.

(** An integer of 4301 digits (a document can hold one: the parser reads
    a hexadecimal literal of any length). *)
Definition huge : Z := (10 ^ 4300)%Z.

(** ** The vocabulary of the specification *)

Definition is_mapping (v : value) : bool :=
  match v with VDict _ => true | _ => false end.

(** A sequence is a list, or a tuple. *)
Definition is_sequence (v : value) : bool :=
  match v with VList _ | VTuple _ => true | _ => false end.

(** The field of an entry, or its documented default when absent. *)
Definition field (entry : list (scalar * value)) (key : string) (default : value)
  : value :=
  match Py.dict_lookup entry key with
  | Some v => v
  | None => default
  end.

(** The line the specification documents for a mapping entry: the texts
    of name, type, command and expected_exit, each defaulted, joined by a
    bar; there is none when a text cannot be produced. *)
Definition gate_line (w : World) (entry : list (scalar * value)) : outcome string :=
  texts <~ collect [Py.str w (field entry "name" (VStr "Unknown"));
                    Py.str w (field entry "type" (VStr "command"));
                    Py.str w (field entry "command" (VStr ""));
                    Py.str w (field entry "expected_exit" (VInt 0))] ;;
  Returns (Py.join "|" texts).

(** The text an [except] clause prints for an exception. *)
Definition diagnostic (story_file : string) (e : exn) : string :=
  match e with
  | SystemExit _ => ""
  | FileNotFoundError => "Error: File not found: " ++ story_file
  | YAMLError msg => "Error: Invalid YAML: " ++ msg
  | AttributeError msg | TypeError msg | ValueError msg
  | UnicodeEncodeError msg | OtherException msg => "Error: " ++ msg
  end.

(** What printing the lines one after the other writes. *)
Fixpoint printed (lines : list string) : string :=
  match lines with
  | [] => ""
  | line :: rest => line ++ nl ++ printed rest
  end.

(** The documents the specification calls empty or null. *)
Definition empty_or_null (data : value) : Prop :=
  data = VNone \/ data = VStr "" \/ data = VBytes "" \/ data = VList []
  \/ data = VTuple [] \/ data = VDict [] \/ data = VSet [].

(** The values a loop runs over zero times without being sequences. *)
Definition iterates_nothing (g : value) : Prop :=
  g = VStr "" \/ g = VBytes "" \/ g = VDict [] \/ g = VSet [].

(** Whether the text interpolated for a field holds the separator; a
    field that has no text is not counted as free of it. *)
Definition has_bar (w : World) (v : value) : bool :=
  match Py.str w v with
  | Returns text => Py.contains_char "|" text
  | Raises _ => true
  end.

(** The number of separators in a text, and in the text of a field. *)
Fixpoint count_bar (s : string) : nat :=
  match s with
  | EmptyString => 0
  | String a rest => (if Ascii.eqb a "|" then 1 else 0) + count_bar rest
  end.

Definition bars (w : World) (v : value) : nat :=
  match Py.str w v with
  | Returns text => count_bar text
  | Raises _ => 0
  end.

(** Whether a value holds no set, at any depth. *)
Fixpoint set_free (v : value) : bool :=
  match v with
  | VScalar _ => true
  | VList l => forallb set_free l
  | VTuple l => forallb set_free l
  | VDict d => forallb (fun kv => set_free (snd kv)) d
  | VSet _ => false
  end.

Definition gate_keys : list string :=
  ["name"; "type"; "command"; "expected_exit"].

(** Whether the four fields of an entry hold no set. *)
Definition entry_set_free (gate : value) : bool :=
  match gate with
  | VDict entry =>
      forallb (fun key => match Py.dict_lookup entry key with
                          | Some v => set_free v
                          | None => true
                          end) gate_keys
  | _ => true
  end.

(** The exceptions a conversion to text can raise. *)
Definition is_value_error (e : exn) : Prop := exists msg, e = ValueError msg.



(** ** Induction on documents *)

Section value_induction.

Variable P : value -> Prop.
Hypothesis on_scalar : forall x, P (VScalar x).
Hypothesis on_list : forall l, Forall P l -> P (VList l).
Hypothesis on_tuple : forall l, Forall P l -> P (VTuple l).
Hypothesis on_dict :
  forall d, Forall (fun kv => P (snd kv)) d -> P (VDict d).
Hypothesis on_set : forall l, P (VSet l).

Fixpoint value_induction (v : value) : P v :=
  match v with
  | VScalar x => on_scalar x
  | VList l =>
      on_list l
        ((fix all (l : list value) : Forall P l :=
            match l with
            | [] => Forall_nil P
            | x :: rest => Forall_cons x (value_induction x) (all rest)
            end) l)
  | VTuple l =>
      on_tuple l
        ((fix all (l : list value) : Forall P l :=
            match l with
            | [] => Forall_nil P
            | x :: rest => Forall_cons x (value_induction x) (all rest)
            end) l)
  | VDict d =>
      on_dict d
        ((fix all (d : list (scalar * value))
            : Forall (fun kv => P (snd kv)) d :=
            match d with
            | [] => Forall_nil _
            | kv :: rest =>
                Forall_cons kv (value_induction (snd kv)) (all rest)
            end) d)
  | VSet l => on_set l
  end.

End value_induction.

(** ** The model at work *)

Example str_int_0 : Py.str_int (world_of VNone) 0 = Returns "0".
Proof. reflexivity. Qed.

Example str_int_neg : Py.str_int (world_of VNone) (-12) = Returns "-12".
Proof. reflexivity. Qed.

Example str_int_huge :
  Py.str_int (world_of VNone) huge
  = Raises (ValueError (Py.exceeds_limit 4300)).
Proof. vm_compute. reflexivity. Qed.

Example repr_nested :
  Py.str (world_of VNone)
         (VList [VStr "ab"; VInt 3; VBool true; VTuple [VNone];
                 VDict [(SStr "k", VSet [])]; VSet [SInt 1; SInt 2]])
  = Returns "['ab', 3, True, (None,), {'k': set()}, {1, 2}]".
Proof. reflexivity. Qed.

Example repr_quote :
  Py.repr (world_of VNone) (VStr "it's")
  = Returns (String Py.dquote ("it's" ++ String Py.dquote "")).
Proof. reflexivity. Qed.

Example repr_no_break_space :
  Py.repr (world_of VNone) (VStr ("a" ++ Py.encode 160 ++ Py.encode 233))
  = Returns ("'a\xa0" ++ Py.encode 233 ++ "'").
Proof. reflexivity. Qed.

Example repr_bytes_escapes :
  Py.repr (world_of VNone) (VBytes ("a" ++ Py.byte 160 ++ Py.byte 9))
  = Returns "b'a\xa0\t'".
Proof. reflexivity. Qed.

Example run_two_gates :
  run_process (world_of (story (VList [gate_build; gate_lint])))
              ["extract-gates.py"; "story.yaml"]
  = Process 0 ("Build|command||0" ++ nl ++ "Lint|script|run-lint.sh|2" ++ nl) "".
Proof. reflexivity. Qed.

Example run_bad_entry :
  run_process (world_of (story (VList [gate_build; VStr "lint"])))
              ["extract-gates.py"; "story.yaml"]
  = Process 0 "" ("Error: 'str' object has no attribute 'get'" ++ nl).
Proof. reflexivity. Qed.

Example run_gates_null :
  run_process (world_of (story VNone)) ["extract-gates.py"; "story.yaml"]
  = Process 0 "" ("Error: 'NoneType' object is not iterable" ++ nl).
Proof. reflexivity. Qed.

Example run_multiline_command :
  run_process
    (world_of (story (VList [VDict [(SStr "command",
                                     VStr ("make" ++ nl ++ "test" ++ nl))]])))
    ["extract-gates.py"; "story.yaml"]
  = Process 0 ("Unknown|command|make" ++ nl ++ "test" ++ nl ++ "|0" ++ nl) "".
Proof. reflexivity. Qed.

Example run_unprintable_gate :
  run_process
    (world_of (story (VList [gate_build;
                             VDict [(SStr "name", VStr lone_surrogate)]])))
    ["extract-gates.py"; "story.yaml"]
  = Process 1 ("Build|command||0" ++ nl)
            (traceback
               (UnicodeEncodeError
                  ("'utf-8' codec can't encode character '\ud800' "
                     ++ "in position 0: surrogates not allowed"))).
Proof. reflexivity. Qed.

(** ** Conversions to text raise nothing but [ValueError] *)

Lemma collect_raises {A} (l : list (outcome A)) e :
  collect l = Raises e -> In (Raises e) l.
Proof.
  induction l as [|o l IH]; cbn; [discriminate|].
  destruct o as [a|e']; cbn.
  - destruct (collect l) as [r|e'']; cbn; [discriminate|].
    intros H. injection H as ->. right. now apply IH.
  - intros H. injection H as ->. now left.
Qed.

Lemma str_int_raises w n e :
  Py.str_int w n = Raises e -> is_value_error e.
Proof.
  unfold Py.str_int.
  destruct (_ && _); [|discriminate].
  intros H. injection H as <-. now eexists.
Qed.

Lemma repr_scalar_raises w x e :
  Py.repr_scalar w x = Raises e -> is_value_error e.
Proof.
  destruct x as [ |[|]|n|r|s|b|t r|t r]; cbn; try discriminate.
  apply str_int_raises.
Qed.

Lemma repr_raises w v : forall e, Py.repr w v = Raises e -> is_value_error e.
Proof.
  induction v as [x|l IH|l IH|d IH|l] using value_induction; intros e; cbn.
  - apply repr_scalar_raises.
  - destruct (collect (map (Py.repr w) l)) as [texts|e'] eqn:Hc; cbn;
      [discriminate|].
    intros H. injection H as ->.
    apply collect_raises, in_map_iff in Hc as (v & Hv & Hin).
    rewrite Forall_forall in IH. now apply (IH v Hin).
  - destruct (collect (map (Py.repr w) l)) as [texts|e'] eqn:Hc; cbn.
    + destruct texts as [|t [|t' texts]]; discriminate.
    + intros H. injection H as ->.
      apply collect_raises, in_map_iff in Hc as (v & Hv & Hin).
      rewrite Forall_forall in IH. now apply (IH v Hin).
  - match goal with
    | |- and_then (collect ?l) _ = _ -> _ =>
        destruct (collect l) as [texts|e'] eqn:Hc
    end; cbn; [discriminate|].
    intros H. injection H as ->.
    apply collect_raises, in_map_iff in Hc as ([k v] & Hv & Hin).
    destruct (Py.repr_scalar w k) as [key|e'] eqn:Hk; cbn in Hv.
    + destruct (Py.repr w v) as [text|e''] eqn:Hr; cbn in Hv;
        [discriminate|].
      injection Hv as ->. rewrite Forall_forall in IH.
      now apply (IH (k, v) Hin).
    + injection Hv as ->. now apply (repr_scalar_raises w k).
  - destruct l as [|x l]; [discriminate|].
    destruct (collect (map (Py.repr_scalar w) (set_order w (x :: l))))
      as [texts|e'] eqn:Hc; cbn; [discriminate|].
    intros H. injection H as ->.
    apply collect_raises, in_map_iff in Hc as (y & Hy & Hin).
    now apply (repr_scalar_raises w y).
Qed.

Lemma str_raises w v e : Py.str w v = Raises e -> is_value_error e.
Proof.
  destruct v as [[ |b|n|r|s|b|t r|t r]|l|l|d|l];
    try discriminate; apply repr_raises.
Qed.

Lemma format_gate_raises w a b x d e :
  format_gate w a b x d = Raises e -> is_value_error e.
Proof.
  unfold format_gate.
  destruct (Py.str w a) eqn:Ha; cbn; [|intros [= <-]; eapply str_raises; eauto].
  destruct (Py.str w b) eqn:Hb; cbn; [|intros [= <-]; eapply str_raises; eauto].
  destruct (Py.str w x) eqn:Hx; cbn; [|intros [= <-]; eapply str_raises; eauto].
  destruct (Py.str w d) eqn:Hd; cbn; [|intros [= <-]; eapply str_raises; eauto].
  discriminate.
Qed.

(** ** Stepping through the loop *)

Lemma py_get_mapping (entry : list (scalar * value)) key default c :
  py_get (VDict entry) key default c = (Returns (field entry key default), c).
Proof.
  unfold py_get, field. destruct (Py.dict_lookup entry key); reflexivity.
Qed.

(** The f-string gives the line of the specification. *)
Lemma format_gate_line w entry :
  format_gate w (field entry "name" (VStr "Unknown"))
                (field entry "type" (VStr "command"))
                (field entry "command" (VStr ""))
                (field entry "expected_exit" (VInt 0))
  = gate_line w entry.
Proof.
  unfold format_gate, gate_line. cbn [collect].
  destruct (Py.str w (field entry "name" (VStr "Unknown"))); cbn; [|reflexivity].
  destruct (Py.str w (field entry "type" (VStr "command"))); cbn; [|reflexivity].
  destruct (Py.str w (field entry "command" (VStr ""))); cbn; [|reflexivity].
  destruct (Py.str w (field entry "expected_exit" (VInt 0))); reflexivity.
Qed.

(** One turn of the loop on a mapping entry appends its line, or raises
    what the conversion of a field raises. *)
Lemma for_gates_mapping w entry rest results c :
  for_gates w (VDict entry :: rest) results c
  = match gate_line w entry with
    | Returns line => for_gates w rest (results ++ [line])%list c
    | Raises e => (Raises e, c)
    end.
Proof.
  cbn [for_gates]. unfold bind at 1. rewrite py_get_mapping.
  unfold bind at 1. rewrite py_get_mapping.
  unfold bind at 1. rewrite py_get_mapping.
  unfold bind at 1. rewrite py_get_mapping.
  unfold bind at 1, eval. rewrite format_gate_line.
  destruct (gate_line w entry); reflexivity.
Qed.


(** One turn of the loop on anything else raises, whatever was built. *)
Lemma for_gates_not_mapping w gate rest results c :
  is_mapping gate = false ->
  for_gates w (gate :: rest) results c
  = (Raises (AttributeError
               ("'" ++ Py.type_name gate ++ "' object has no attribute 'get'")),
     c).
Proof.
  destruct gate as [x|l|l|d|l]; try discriminate; intros _; reflexivity.
Qed.



Lemma gate_line_raises w entry e :
  gate_line w entry = Raises e -> is_value_error e.
Proof.
  rewrite <- format_gate_line. apply format_gate_raises.
Qed.


(** As soon as one entry is no mapping, the loop raises. *)
Lemma for_gates_raises w (gates : list value) :
  Exists (fun g => is_mapping g = false) gates ->
  forall results c, exists e, for_gates w gates results c = (Raises e, c).
Proof.
  induction gates as [|gate gates IH]; intros Hex results c.
  - inversion Hex.
  - destruct (is_mapping gate) eqn:Hg.
    + destruct gate as [x|l|l|entry|l]; try discriminate.
      rewrite for_gates_mapping.
      destruct (gate_line w entry) as [line|e]; [|now exists e].
      apply IH. inversion Hex as [? ? H|? ? H]; subst;
        [cbn in H; discriminate|exact H].
    + eexists. now apply for_gates_not_mapping.
Qed.

(** The loop never touches the console and never exits the process. *)
Lemma for_gates_quiet w (gates : list value) :
  forall results, exists o,
    (forall c, for_gates w gates results c = (o, c))
    /\ (forall code, o <> Raises (SystemExit code)).
Proof.
  induction gates as [|gate gates IH]; intros results.
  - exists (Returns results). split; [reflexivity|discriminate].
  - destruct (is_mapping gate) eqn:Hg.
    + destruct gate as [x|l|l|entry|l]; try discriminate.
      destruct (gate_line w entry) as [line|e] eqn:Hline.
      * destruct (IH (results ++ [line])%list) as (o & Ho & Hne).
        exists o. split; [|exact Hne].
        intros c. rewrite for_gates_mapping, Hline. apply Ho.
      * exists (Raises e). split.
        -- intros c. now rewrite for_gates_mapping, Hline.
        -- destruct (gate_line_raises _ _ _ Hline) as [msg ->]. discriminate.
    + eexists. split; [intros c; now apply for_gates_not_mapping|discriminate].
Qed.

Lemma dict_lookup_nonempty d key v :
  Py.dict_lookup d key = Some v -> Py.truthy (VDict d) = true.
Proof. destruct d; [discriminate|reflexivity]. Qed.

(** ** Stepping through the extraction *)

(** The [try] block on a file that opens and parses. *)
Lemma body_loaded w path text data c :
  open_file w path = Opened text ->
  safe_load w text = Loaded data ->
  extract_gates_body w path c
  = (if negb (Py.truthy data) then ret []
     else
       verification <- py_get data "verification" (VDict []) ;;
       gates <- py_get verification "gates" (VList []) ;;
       items <- py_iter w gates ;;
       for_gates w items []) c.
Proof.
  intros Hopen Hload. unfold extract_gates_body, py_open, yaml_safe_load.
  unfold bind at 1. rewrite Hopen. unfold ret at 1.
  unfold bind at 1. rewrite Hload. reflexivity.
Qed.

(** The [try] block once the walk has reached the value under [gates]. *)
Lemma body_gates w path text doc verification gates c :
  open_file w path = Opened text ->
  safe_load w text = Loaded (VDict doc) ->
  Py.dict_lookup doc "verification" = Some (VDict verification) ->
  Py.dict_lookup verification "gates" = Some gates ->
  extract_gates_body w path c
  = (items <- py_iter w gates ;; for_gates w items []) c.
Proof.
  intros Hopen Hload Hver Hgates.
  rewrite (body_loaded _ _ _ _ _ Hopen Hload).
  rewrite (dict_lookup_nonempty _ _ _ Hver). cbn [negb].
  unfold bind at 1. rewrite py_get_mapping. unfold field. rewrite Hver.
  unfold bind at 1. rewrite py_get_mapping. unfold field. rewrite Hgates.
  reflexivity.
Qed.

(** The walk when [verification] is bound to a value that is no mapping:
    the second [get] raises. *)
Lemma body_verification_not_mapping w path text doc v c :
  open_file w path = Opened text ->
  safe_load w text = Loaded (VDict doc) ->
  Py.dict_lookup doc "verification" = Some v ->
  is_mapping v = false ->
  extract_gates_body w path c
  = (Raises (AttributeError
               ("'" ++ Py.type_name v ++ "' object has no attribute 'get'")),
     c).
Proof.
  intros Hopen Hload Hver Hv.
  rewrite (body_loaded _ _ _ _ _ Hopen Hload).
  rewrite (dict_lookup_nonempty _ _ _ Hver). cbn [negb].
  unfold bind at 1. rewrite py_get_mapping. unfold field. rewrite Hver.
  destruct v as [x|l|l|entry|l]; try discriminate; reflexivity.
Qed.

(** The walk when a key is absent: the default of the [get] is used. *)
Lemma body_verification_absent w path text doc c :
  open_file w path = Opened text ->
  safe_load w text = Loaded (VDict doc) ->
  Py.dict_lookup doc "verification" = None ->
  extract_gates_body w path c = (Returns [], c).
Proof.
  intros Hopen Hload Hver.
  rewrite (body_loaded _ _ _ _ _ Hopen Hload).
  destruct (negb (Py.truthy (VDict doc))); [reflexivity|].
  unfold bind at 1. rewrite py_get_mapping. unfold field. rewrite Hver.
  reflexivity.
Qed.

Lemma body_gates_absent w path text doc verification c :
  open_file w path = Opened text ->
  safe_load w text = Loaded (VDict doc) ->
  Py.dict_lookup doc "verification" = Some (VDict verification) ->
  Py.dict_lookup verification "gates" = None ->
  extract_gates_body w path c = (Returns [], c).
Proof.
  intros Hopen Hload Hver Hgates.
  rewrite (body_loaded _ _ _ _ _ Hopen Hload).
  rewrite (dict_lookup_nonempty _ _ _ Hver). cbn [negb].
  unfold bind at 1. rewrite py_get_mapping. unfold field. rewrite Hver.
  unfold bind at 1. rewrite py_get_mapping. unfold field. rewrite Hgates.
  reflexivity.
Qed.

Lemma py_get_quiet obj key default :
  exists o, (forall c, py_get obj key default c = (o, c))
            /\ (forall code, o <> Raises (SystemExit code)).
Proof.
  destruct obj as [x|l|l|entry|l];
    try (eexists; split; [reflexivity|discriminate]).
  exists (Returns (field entry key default)).
  split; [intros c; apply py_get_mapping|discriminate].
Qed.

Lemma py_iter_quiet w obj :
  exists o, (forall c, py_iter w obj c = (o, c))
            /\ (forall code, o <> Raises (SystemExit code)).
Proof.
  destruct obj as [[ |b|n|r|s|b|t r|t r]|l|l|entry|l];
    eexists; (split; [reflexivity|discriminate]).
Qed.

(** Sequencing keeps a computation quiet. *)
Lemma bind_quiet {A B} (m : Comp A) (k : A -> Comp B) :
  (exists o, (forall c, m c = (o, c))
             /\ (forall code, o <> Raises (SystemExit code))) ->
  (forall a, exists o, (forall c, k a c = (o, c))
                       /\ (forall code, o <> Raises (SystemExit code))) ->
  exists o, (forall c, bind m k c = (o, c))
            /\ (forall code, o <> Raises (SystemExit code)).
Proof.
  intros (o & Hm & Hne) Hk. destruct o as [a|e].
  - destruct (Hk a) as (o' & Hk' & Hne'). exists o'. split; [|exact Hne'].
    intros c. unfold bind. rewrite Hm. apply Hk'.
  - exists (Raises e). split.
    + intros c. unfold bind. now rewrite Hm.
    + intros code Heq. apply (Hne code). now inversion Heq.
Qed.

(** The [try] block reads, and writes nothing: its outcome does not depend
    on the console, it leaves the console as it found it, and it never
    asks the process to exit. *)
Lemma body_quiet w path :
  exists o, (forall c, extract_gates_body w path c = (o, c))
            /\ (forall code, o <> Raises (SystemExit code)).
Proof.
  unfold extract_gates_body. apply bind_quiet.
  { unfold py_open. destruct (open_file w path);
      eexists; (split; [reflexivity|discriminate]). }
  intros f. apply bind_quiet.
  { unfold yaml_safe_load. destruct (safe_load w f);
      eexists; (split; [reflexivity|discriminate]). }
  intros data. destruct (negb (Py.truthy data)).
  { eexists; split; [reflexivity|discriminate]. }
  apply bind_quiet; [apply py_get_quiet|]. intros verification.
  apply bind_quiet; [apply py_get_quiet|]. intros gates.
  apply bind_quiet; [apply py_iter_quiet|]. intros items.
  apply for_gates_quiet.
Qed.

Lemma diagnostic_prefix story_file e :
  (forall code, e <> SystemExit code) ->
  exists msg, diagnostic story_file e = "Error: " ++ msg.
Proof.
  intros Hne. destruct e; cbn; eauto. now destruct (Hne code).
Qed.

(** [extract_gates] in terms of its [try] block. *)
Lemma extract_gates_returns w path c results :
  extract_gates_body w path c = (Returns results, c) ->
  extract_gates w path c = (Returns results, c).
Proof.
  intros H. unfold extract_gates, try_except. now rewrite H.
Qed.

Lemma extract_gates_recovers w path c e :
  extract_gates_body w path c = (Raises e, c) ->
  (forall code, e <> SystemExit code) ->
  extract_gates w path c
  = (Returns [],
     Console (stdout c) (stderr c ++ diagnostic path e ++ nl)).
Proof.
  intros H Hne. unfold extract_gates, try_except. rewrite H.
  destruct e; try reflexivity. now destruct (Hne code).
Qed.

Lemma append_empty (s : string) : s ++ "" = s.
Proof. induction s as [|a s IH]; cbn; [reflexivity|now rewrite IH]. Qed.

Lemma append_assoc (a b c : string) : (a ++ b) ++ c = a ++ b ++ c.
Proof. induction a as [|x a IH]; cbn; [reflexivity|now rewrite IH]. Qed.

(** Every call returns: a list, and at most one diagnostic more on the
    diagnostic stream, both the same whatever the console held; a
    diagnostic comes with the empty list. *)
Lemma extract_gates_total w path :
  exists results diag,
    (forall c, extract_gates w path c
               = (Returns results, Console (stdout c) (stderr c ++ diag)))
    /\ (diag = ""
        \/ results = [] /\ exists msg, diag = "Error: " ++ msg ++ nl).
Proof.
  destruct (body_quiet w path) as (o & Hbody & Hne).
  destruct o as [results|e].
  - exists results, "". split; [|now left].
    intros c. rewrite (extract_gates_returns _ _ _ _ (Hbody c)).
    destruct c; cbn. now rewrite append_empty.
  - assert (Hne' : forall code, e <> SystemExit code).
    { intros code ->. now apply (Hne code). }
    exists [], (diagnostic path e ++ nl). split.
    + intros c. apply extract_gates_recovers; [apply Hbody|exact Hne'].
    + right. split; [reflexivity|].
      destruct (diagnostic_prefix path e Hne') as (msg & ->).
      exists msg. now rewrite append_assoc.
Qed.

(** ** Stepping through [main] *)

(** Printing lines that standard output accepts. *)
Lemma print_all_prints w (lines : list string) :
  Forall (fun line => stdout_refuses w line = None) lines ->
  forall c, print_all w lines c
            = (Returns tt, Console (stdout c ++ printed lines) (stderr c)).
Proof.
  induction 1 as [|line lines Hline _ IH]; intros c.
  - destruct c; cbn. rewrite append_empty. reflexivity.
  - cbn [print_all]. unfold bind, print. rewrite Hline, IH.
    cbn. rewrite !append_assoc. reflexivity.
Qed.


(** [print_all] either prints everything or raises what the encoder
    raises; it leaves the diagnostic stream alone. *)
Lemma print_all_outcome w (lines : list string) :
  forall c,
    (print_all w lines c
     = (Returns tt, Console (stdout c ++ printed lines) (stderr c)))
    \/ (exists msg text,
           print_all w lines c
           = (Raises (UnicodeEncodeError msg), Console text (stderr c))).
Proof.
  induction lines as [|line lines IH]; intros c.
  - left. destruct c; cbn. rewrite append_empty. reflexivity.
  - cbn [print_all]. unfold bind, print.
    destruct (stdout_refuses w line) as [msg|].
    + right. exists msg, (stdout c). destruct c; reflexivity.
    + destruct (IH (Console (stdout c ++ line ++ nl) (stderr c)))
        as [Hok|(msg & text & Hraise)].
      * left. rewrite Hok. cbn.
        rewrite !append_assoc. reflexivity.
      * right. exists msg, text. exact Hraise.
Qed.

(** A run with a path argument, in terms of [extract_gates]. *)
Lemma run_process_with_path w prog path rest results diag :
  extract_gates w path empty_console = (Returns results, Console "" diag) ->
  Forall (fun line => stdout_refuses w line = None) results ->
  run_process w (prog :: path :: rest) = Process 0 (printed results) diag.
Proof.
  intros H Hok. unfold run_process, main. cbn [List.length Nat.ltb Nat.leb nth].
  unfold bind. rewrite H, (print_all_prints w results Hok). reflexivity.
Qed.

(** A run in which the extraction met an error prints no gate. *)
Lemma run_process_diagnostic w prog path rest diag :
  extract_gates w path empty_console = (Returns [], Console "" diag) ->
  run_process w (prog :: path :: rest) = Process 0 "" diag.
Proof.
  intros H. now apply (run_process_with_path w prog path rest [] diag).
Qed.

(** ** The error paths of the extraction *)

Lemma extract_gates_missing w path c :
  open_file w path = NoSuchFile ->
  extract_gates w path c
  = (Returns [],
     Console (stdout c)
             (stderr c ++ "Error: File not found: " ++ path ++ nl)).
Proof.
  intros Hopen.
  unfold extract_gates, try_except, extract_gates_body, py_open, bind.
  rewrite Hopen. reflexivity.
Qed.

Lemma extract_gates_malformed w path text msg c :
  open_file w path = Opened text ->
  safe_load w text = Malformed msg ->
  extract_gates w path c
  = (Returns [],
     Console (stdout c) (stderr c ++ "Error: Invalid YAML: " ++ msg ++ nl)).
Proof.
  intros Hopen Hload.
  unfold extract_gates, try_except, extract_gates_body, py_open,
    yaml_safe_load, bind.
  rewrite Hopen. unfold ret at 1. rewrite Hload. reflexivity.
Qed.

Lemma extract_gates_open_fails w path msg c :
  open_file w path = OpenFails msg ->
  extract_gates w path c
  = (Returns [], Console (stdout c) (stderr c ++ "Error: " ++ msg ++ nl)).
Proof.
  intros Hopen.
  unfold extract_gates, try_except, extract_gates_body, py_open, bind.
  rewrite Hopen. reflexivity.
Qed.

Lemma extract_gates_load_fails w path text msg c :
  open_file w path = Opened text ->
  safe_load w text = LoadFails msg ->
  extract_gates w path c
  = (Returns [], Console (stdout c) (stderr c ++ "Error: " ++ msg ++ nl)).
Proof.
  intros Hopen Hload.
  unfold extract_gates, try_except, extract_gates_body, py_open,
    yaml_safe_load, bind.
  rewrite Hopen. unfold ret at 1. rewrite Hload. reflexivity.
Qed.

(** The test of line 17 sends every falsy document to [return []]. *)
Lemma falsy_document_no_gates w path text data c :
  open_file w path = Opened text ->
  safe_load w text = Loaded data ->
  Py.truthy data = false ->
  extract_gates w path c = (Returns [], c).
Proof.
  intros Hopen Hload Hfalsy. apply extract_gates_returns.
  rewrite (body_loaded _ _ _ _ _ Hopen Hload), Hfalsy. reflexivity.
Qed.

(** An empty file: the parser answers null for the empty text. *)
Lemma empty_file_no_gates w path c :
  open_file w path = Opened "" ->
  safe_load w "" = Loaded VNone ->
  extract_gates w path c = (Returns [], c).
Proof.
  intros Hopen Hload.
  now apply (falsy_document_no_gates w path "" VNone).
Qed.


(** ** The properties of the specification *)






(** C3, as the specification states it, fails.  A path is supplied, the
    file opens, parses and yields one gate, nothing is reported, and the
    process exits with status 1: the name of the gate is a lone
    surrogate, which the encoder of standard output refuses, so the
    [print] of line 54, outside any [try], raises. *)
Lemma unprintable_gate_exits_with_1 :
  extract_gates
    (world_of (story (VList [VDict [(SStr "name", VStr lone_surrogate)]])))
    "story.yaml" empty_console
  = (Returns [lone_surrogate ++ "|command||0"], empty_console)
  /\ exit_status
       (run_process
          (world_of (story (VList [VDict [(SStr "name",
                                           VStr lone_surrogate)]])))
          ["extract-gates.py"; "story.yaml"]) = 1%Z.
Proof. split; reflexivity. Qed.

(** C3, amended.  With a path argument: no call of [extract_gates]
    raises, it always returns; whenever its [try] block raised, it
    returns the empty list after printing one diagnostic that starts with
    [Error:], and the process then prints no gate and exits with status
    0: so for a file that is not found, for a malformed one, and for any
    other failure of opening or reading.  When the extraction returns
    lines, the process exits with status 0 provided standard output
    accepts each of them. *)
Theorem extraction_errors_are_contained w prog path rest :
  (forall story_file c, exists results diag,
      extract_gates w story_file c
      = (Returns results, Console (stdout c) (stderr c ++ diag)))
  /\ (forall c e c',
         extract_gates_body w path c = (Raises e, c') ->
         exists msg,
           extract_gates w path c
           = (Returns [],
              Console (stdout c) (stderr c ++ "Error: " ++ msg ++ nl))
           /\ run_process w (prog :: path :: rest)
              = Process 0 "" ("Error: " ++ msg ++ nl))
  /\ (open_file w path = NoSuchFile ->
      run_process w (prog :: path :: rest)
      = Process 0 "" ("Error: File not found: " ++ path ++ nl))
  /\ (forall text msg,
         open_file w path = Opened text ->
         safe_load w text = Malformed msg ->
         run_process w (prog :: path :: rest)
         = Process 0 "" ("Error: Invalid YAML: " ++ msg ++ nl))
  /\ (forall msg,
         open_file w path = OpenFails msg
         \/ (exists text, open_file w path = Opened text
                          /\ safe_load w text = LoadFails msg) ->
         run_process w (prog :: path :: rest)
         = Process 0 "" ("Error: " ++ msg ++ nl))
  /\ (forall results c',
         extract_gates w path empty_console = (Returns results, c') ->
         Forall (fun line => stdout_refuses w line = None) results ->
         exit_status (run_process w (prog :: path :: rest)) = 0%Z).
Proof.
  split; [|split; [|split; [|split; [|split]]]].
  - intros story_file c.
    destruct (extract_gates_total w story_file)
      as (results & diag & Hrun & _).
    exists results, diag. apply Hrun.
  - intros c e c' Hraise.
    destruct (body_quiet w path) as (o & Hbody & Hne).
    rewrite Hbody in Hraise. injection Hraise as Ho Hc. subst o c'.
    assert (Hne' : forall code, e <> SystemExit code).
    { intros code ->. now apply (Hne code). }
    destruct (diagnostic_prefix path e Hne') as (msg & Hmsg).
    exists msg. split.
    + rewrite (extract_gates_recovers _ _ _ _ (Hbody c) Hne'), Hmsg.
      now rewrite append_assoc.
    + apply run_process_diagnostic.
      rewrite (extract_gates_recovers _ _ _ _ (Hbody empty_console) Hne'), Hmsg.
      reflexivity.
  - intros Hopen. apply run_process_diagnostic.
    now rewrite (extract_gates_missing _ _ _ Hopen).
  - intros text msg Hopen Hload. apply run_process_diagnostic.
    now rewrite (extract_gates_malformed _ _ _ _ _ Hopen Hload).
  - intros msg [Hopen|(text & Hopen & Hload)]; apply run_process_diagnostic.
    + now rewrite (extract_gates_open_fails _ _ _ _ Hopen).
    + now rewrite (extract_gates_load_fails _ _ _ _ _ Hopen Hload).
  - intros results c' Hrun Hok.
    destruct (extract_gates_total w path) as (results' & diag & Htotal & _).
    rewrite Htotal in Hrun. inversion Hrun; subst.
    rewrite (run_process_with_path w prog path rest results diag);
      [reflexivity|apply Htotal|exact Hok].
Qed.

Lemma extraction_errors_are_contained_witness :
  run_process (world_of (story VNone)) ["extract-gates.py"; "missing.yaml"]
  = Process 0 "" ("Error: File not found: missing.yaml" ++ nl)
  /\ run_process (world_with (Opened "gates: [") (Malformed "expected ']'"))
                 ["extract-gates.py"; "story.yaml"]
     = Process 0 "" ("Error: Invalid YAML: expected ']'" ++ nl)
  /\ exists msg,
       extract_gates (world_of (story VNone)) "story.yaml" empty_console
       = (Returns [], Console "" ("Error: " ++ msg ++ nl))
       /\ run_process (world_of (story VNone))
                      ["extract-gates.py"; "story.yaml"]
          = Process 0 "" ("Error: " ++ msg ++ nl).
Proof.
  split; [|split].
  - destruct (extraction_errors_are_contained
                (world_of (story VNone)) "extract-gates.py" "missing.yaml" [])
      as (_ & _ & H & _).
    exact (H eq_refl).
  - destruct (extraction_errors_are_contained
                (world_with (Opened "gates: [") (Malformed "expected ']'"))
                "extract-gates.py" "story.yaml" [])
      as (_ & _ & _ & H & _).
    exact (H "gates: [" "expected ']'" eq_refl eq_refl).
  - destruct (extraction_errors_are_contained
                (world_of (story VNone)) "extract-gates.py" "story.yaml" [])
      as (_ & H & _).
    exact (H empty_console
             (TypeError "'NoneType' object is not iterable") empty_console
             eq_refl).
Defined.

(** ** Values of the wrong shape under [verification] and [gates] *)

Lemma decode_nonempty (s : string) :
  forall need acc, s <> "" \/ need <> 0%nat -> Py.decode s need acc <> [].
Proof.
  induction s as [|b s IH]; intros need acc Hne.
  - destruct need; [destruct Hne; contradiction|discriminate].
  - cbn. destruct need as [|[|k]].
    + destruct (N.ltb (N_of_ascii b) 128); [discriminate|].
      destruct (N.ltb (N_of_ascii b) 224); [apply IH; now right|].
      destruct (N.ltb (N_of_ascii b) 240); apply IH; now right.
    + discriminate.
    + apply IH. now right.
Qed.

(** A text that is not empty has a first character, which is a [str]. *)
Lemma chars_nonempty a s :
  exists first rest, chars (String a s) = VStr first :: rest.
Proof.
  unfold chars, Py.code_points.
  destruct (Py.decode (String a s) 0 0) as [|cp cps] eqn:Hd.
  - exfalso. apply (decode_nonempty (String a s) 0%nat 0%N); [|exact Hd].
    left. discriminate.
  - cbn. eauto.
Qed.

(** A set that is not empty has a first element, whatever the order. *)
Lemma set_order_nonempty w x l :
  exists first rest, set_order w (x :: l) = first :: rest.
Proof.
  destruct (set_order w (x :: l)) as [|first rest] eqn:Horder; [|eauto].
  pose proof (set_order_perm w (x :: l)) as Hperm. rewrite Horder in Hperm.
  apply Permutation_sym, Permutation_nil in Hperm. discriminate.
Qed.

(** The loop over a value under [gates] that is no sequence. *)
Lemma iterate_not_sequence w (g : value) :
  is_sequence g = false ->
  forall c,
    (iterates_nothing g /\
     (items <- py_iter w g ;; for_gates w items []) c = (Returns [], c))
    \/ (~ iterates_nothing g /\
        exists e, (forall code, e <> SystemExit code) /\
          (items <- py_iter w g ;; for_gates w items []) c = (Raises e, c)).
Proof.
  intros Hg c. unfold iterates_nothing.
  destruct g as [[ |b|n|r|s|b|t r|t r]| l | l |d|l]; try discriminate.
  - right. split; [intros [H|[H|[H|H]]]; discriminate|].
    eexists. split; [|reflexivity]. discriminate.
  - right. split; [intros [H|[H|[H|H]]]; discriminate|].
    eexists. split; [|reflexivity]. discriminate.
  - right. split; [intros [H|[H|[H|H]]]; discriminate|].
    eexists. split; [|reflexivity]. discriminate.
  - right. split; [intros [H|[H|[H|H]]]; discriminate|].
    eexists. split; [|reflexivity]. discriminate.
  - destruct s as [|a s].
    + left. split; [now left|reflexivity].
    + right. split; [intros [H|[H|[H|H]]]; discriminate|].
      destruct (chars_nonempty a s) as (first & rest & Hchars).
      eexists. split; [|unfold bind, py_iter, ret; rewrite Hchars;
                        reflexivity]. discriminate.
  - destruct b as [|a b].
    + left. split; [right; now left|reflexivity].
    + right. split; [intros [H|[H|[H|H]]]; discriminate|].
      eexists. split; [|reflexivity]. discriminate.
  - right. split; [intros [H|[H|[H|H]]]; discriminate|].
    eexists. split; [|reflexivity]. discriminate.
  - right. split; [intros [H|[H|[H|H]]]; discriminate|].
    eexists. split; [|reflexivity]. discriminate.
  - destruct d as [|[k v] d].
    + left. split; [right; right; now left|reflexivity].
    + right. split; [intros [H|[H|[H|H]]]; discriminate|].
      eexists. split; [|reflexivity]. discriminate.
  - destruct l as [|x l].
    + left. split; [now repeat right|].
      unfold bind, py_iter, ret.
      pose proof (set_order_perm w []) as Hperm.
      apply Permutation_nil in Hperm. rewrite Hperm. reflexivity.
    + right. split; [intros [H|[H|[H|H]]]; discriminate|].
      destruct (set_order_nonempty w x l) as (first & rest & Horder).
      eexists. split; [|unfold bind, py_iter, ret; rewrite Horder;
                        reflexivity]. discriminate.
Qed.

(** C4, as the specification states it, fails.  With [verification] bound
    to a string the [try] block raises, and the call differs from the one
    on the document whose [verification] is the empty mapping: a
    diagnostic is printed.  The same holds with [gates] bound to a number
    against the empty sequence. *)
Lemma wrong_shape_is_not_defaulted :
  extract_gates_body (world_of (VDict [(SStr "verification", VStr "todo")]))
                     "story.yaml" empty_console
  = (Raises (AttributeError "'str' object has no attribute 'get'"),
     empty_console)
  /\ extract_gates (world_of (VDict [(SStr "verification", VStr "todo")]))
                   "story.yaml" empty_console
     <> extract_gates (world_of (VDict [(SStr "verification", VDict [])]))
                      "story.yaml" empty_console
  /\ extract_gates_body (world_of (story (VInt 3))) "story.yaml" empty_console
     = (Raises (TypeError "'int' object is not iterable"), empty_console)
  /\ extract_gates (world_of (story (VInt 3))) "story.yaml" empty_console
     <> extract_gates (world_of (story (VList []))) "story.yaml" empty_console.
Proof.
  split; [reflexivity|]. split; [discriminate|].
  split; [reflexivity|discriminate].
Qed.

(** C4, amended.  On a document that is a mapping: a value under
    [verification] that is no mapping makes the second lookup raise, and
    [extract_gates] returns the empty list through its catch-all handler,
    which prints that the value has no attribute get; a value under
    [gates] that is no sequence gives the empty list too, through the
    handler and with one [Error:] diagnostic, except for the values over
    which the loop runs zero times (the empty string, the empty byte
    string, the empty mapping and the empty set), for which nothing is
    printed.  The empty mapping and the empty sequence are defaults for
    an absent key only. *)
Theorem wrong_shape_is_recovered_by_the_handler w path text doc c :
  open_file w path = Opened text ->
  safe_load w text = Loaded (VDict doc) ->
  (forall v,
      Py.dict_lookup doc "verification" = Some v ->
      is_mapping v = false ->
      extract_gates_body w path c
      = (Raises (AttributeError
                   ("'" ++ Py.type_name v ++ "' object has no attribute 'get'")),
         c)
      /\ extract_gates w path c
         = (Returns [],
            Console (stdout c)
                    (stderr c ++ "Error: '" ++ Py.type_name v
                       ++ "' object has no attribute 'get'" ++ nl)))
  /\ (forall verification g,
         Py.dict_lookup doc "verification" = Some (VDict verification) ->
         Py.dict_lookup verification "gates" = Some g ->
         is_sequence g = false ->
         exists diag,
           extract_gates w path c
           = (Returns [], Console (stdout c) (stderr c ++ diag))
           /\ (diag = "" <-> iterates_nothing g)
           /\ (diag = "" \/ exists msg, diag = "Error: " ++ msg ++ nl))
  /\ (Py.dict_lookup doc "verification" = None ->
      extract_gates w path c = (Returns [], c))
  /\ (forall verification,
         Py.dict_lookup doc "verification" = Some (VDict verification) ->
         Py.dict_lookup verification "gates" = None ->
         extract_gates w path c = (Returns [], c)).
Proof.
  intros Hopen Hload. split; [|split; [|split]].
  - intros v Hver Hv.
    pose proof (body_verification_not_mapping _ _ _ _ _ c Hopen Hload Hver Hv)
      as Hbody.
    split; [exact Hbody|].
    rewrite (extract_gates_recovers _ _ _ _ Hbody); [|discriminate].
    cbn. now rewrite !append_assoc.
  - intros verification g Hver Hgates Hg.
    pose proof (body_gates _ _ _ _ _ _ c Hopen Hload Hver Hgates) as Hbody.
    destruct (iterate_not_sequence w g Hg c)
      as [[Hempty Hloop]|(Hn & e & Hne & Hloop)];
      rewrite Hloop in Hbody.
    + exists "". split; [|split].
      * rewrite (extract_gates_returns _ _ _ _ Hbody).
        destruct c; cbn. now rewrite append_empty.
      * split; intros _; [exact Hempty|reflexivity].
      * now left.
    + destruct (diagnostic_prefix path e Hne) as (msg & Hmsg).
      exists ("Error: " ++ msg ++ nl). split; [|split].
      * rewrite (extract_gates_recovers _ _ _ _ Hbody Hne), Hmsg.
        now rewrite append_assoc.
      * split; [discriminate|]. intros H. contradiction.
      * right. now exists msg.
  - intros Hver. apply extract_gates_returns.
    now apply (body_verification_absent w path text doc).
  - intros verification Hver Hgates. apply extract_gates_returns.
    now apply (body_gates_absent w path text doc verification).
Qed.

Lemma wrong_shape_is_recovered_by_the_handler_witness :
  extract_gates (world_of (VDict [(SStr "verification", VNone)]))
                "story.yaml" empty_console
  = (Returns [],
     Console "" ("Error: 'NoneType' object has no attribute 'get'" ++ nl))
  /\ exists diag,
       extract_gates (world_of (story (VSet []))) "story.yaml" empty_console
       = (Returns [], Console "" diag)
       /\ (diag = "" <-> iterates_nothing (VSet []))
       /\ (diag = "" \/ exists msg, diag = "Error: " ++ msg ++ nl).
Proof.
  split.
  - destruct (wrong_shape_is_recovered_by_the_handler
                (world_of (VDict [(SStr "verification", VNone)]))
                "story.yaml" "text" [(SStr "verification", VNone)]
                empty_console eq_refl eq_refl) as [H _].
    destruct (H VNone eq_refl eq_refl) as [_ Hrun]. exact Hrun.
  - destruct (wrong_shape_is_recovered_by_the_handler
                (world_of (story (VSet [])))
                "story.yaml" "text"
                [(SStr "title", VStr "Story");
                 (SStr "verification", VDict [(SStr "gates", VSet [])])]
                empty_console eq_refl eq_refl) as (_ & H & _).
    exact (H [(SStr "gates", VSet [])] (VSet [])
             eq_refl eq_refl eq_refl).
Defined.

(** C5. When the path argument names no existing file, the process prints
    [Error: File not found: <path>] on the diagnostic stream, prints
    nothing on standard output and exits with status 0. *)
Theorem missing_file_is_reported w prog path rest :
  open_file w path = NoSuchFile ->
  run_process w (prog :: path :: rest)
  = Process 0 "" ("Error: File not found: " ++ path ++ nl).
Proof.
  intros Hopen. apply run_process_diagnostic.
  now rewrite (extract_gates_missing _ _ _ Hopen).
Qed.

Lemma missing_file_is_reported_witness :
  run_process (world_of (story (VList [gate_build])))
              ["extract-gates.py"; "missing.yaml"]
  = Process 0 "" ("Error: File not found: missing.yaml" ++ nl).
Proof.
  apply (missing_file_is_reported
           (world_of (story (VList [gate_build])))
           "extract-gates.py" "missing.yaml" []).
  reflexivity.
Defined.

(** C6. Invoked with no argument ([sys.argv] shorter than 2), the process
    prints the usage message on the diagnostic stream, nothing on
    standard output, and exits with status 1. *)
Theorem no_argument_prints_usage w argv :
  (List.length argv < 2)%nat ->
  run_process w argv
  = Process 1 "" ("Usage: python extract-gates.py <story-file>" ++ nl).
Proof.
  intros Hlen. unfold run_process, main.
  destruct (Nat.ltb_spec (List.length argv) 2) as [_|Hge]; [reflexivity|lia].
Qed.

Lemma no_argument_prints_usage_witness :
  run_process (world_of (story (VList [gate_build]))) ["extract-gates.py"]
  = Process 1 "" ("Usage: python extract-gates.py <story-file>" ++ nl).
Proof.
  apply (no_argument_prints_usage
           (world_of (story (VList [gate_build]))) ["extract-gates.py"]).
  simpl. lia.
Defined.

(** C7. When the file parses to an empty or null document (which is what
    the parser gives for an empty file: null), [extract_gates] returns
    the empty list as a normal result: nothing is raised inside and
    nothing is reported. *)
Theorem empty_document_no_gates w path text data c :
  open_file w path = Opened text ->
  safe_load w text = Loaded data ->
  empty_or_null data ->
  extract_gates_body w path c = (Returns [], c)
  /\ extract_gates w path c = (Returns [], c).
Proof.
  intros Hopen Hload Hempty.
  assert (Hfalsy : Py.truthy data = false).
  { destruct Hempty as [->|[->|[->|[->|[->|[->| ->]]]]]]; reflexivity. }
  split.
  - rewrite (body_loaded _ _ _ _ _ Hopen Hload), Hfalsy. reflexivity.
  - now apply (falsy_document_no_gates w path text data).
Qed.

Lemma empty_document_no_gates_witness :
  extract_gates_body (world_of VNone) "story.yaml" empty_console
  = (Returns [], empty_console)
  /\ extract_gates (world_of VNone) "story.yaml" empty_console
     = (Returns [], empty_console).
Proof.
  apply (empty_document_no_gates (world_of VNone) "story.yaml" "text" VNone
                                 empty_console).
  - reflexivity.
  - reflexivity.
  - left. reflexivity.
Defined.

(** ** The line format *)

(** A text without a bar, followed by a bar, is cut at that bar. *)
Lemma cut_at_bar (a : string) :
  forall a' b b',
    Py.contains_char "|" a = false ->
    Py.contains_char "|" a' = false ->
    a ++ "|" ++ b = a' ++ "|" ++ b' ->
    a = a' /\ b = b'.
Proof.
  induction a as [|x a IH]; intros [|x' a'] b b' Ha Ha' Heq; cbn in *.
  - injection Heq as ->. now split.
  - injection Heq as <- _. cbn in Ha'. discriminate.
  - injection Heq as -> _. cbn in Ha. discriminate.
  - injection Heq as -> Heq.
    apply orb_false_elim in Ha as [_ Ha].
    apply orb_false_elim in Ha' as [_ Ha'].
    destruct (IH a' b b' Ha Ha' Heq) as [-> ->]. now split.
Qed.

(** A line gives back the texts it was made of. *)
Lemma format_gate_returns w n t x e line :
  format_gate w n t x e = Returns line ->
  exists a b c d,
    Py.str w n = Returns a /\ Py.str w t = Returns b
    /\ Py.str w x = Returns c /\ Py.str w e = Returns d
    /\ line = a ++ "|" ++ b ++ "|" ++ c ++ "|" ++ d.
Proof.
  unfold format_gate.
  destruct (Py.str w n) as [a|]; cbn; [|discriminate].
  destruct (Py.str w t) as [b|]; cbn; [|discriminate].
  destruct (Py.str w x) as [c|]; cbn; [|discriminate].
  destruct (Py.str w e) as [d|]; cbn; [|discriminate].
  intros H. injection H as <-. exists a, b, c, d. now repeat split.
Qed.

(** A field free of bars has a text. *)
Lemma has_bar_text w v :
  has_bar w v = false ->
  exists text, Py.str w v = Returns text /\ Py.contains_char "|" text = false.
Proof.
  unfold has_bar. destruct (Py.str w v) as [text|e]; [eauto|discriminate].
Qed.

(** Equal lines have equal fields, as texts, when the first three hold no
    bar. *)
Lemma format_gate_inj w n1 t1 c1 e1 n2 t2 c2 e2 :
  has_bar w n1 = false -> has_bar w t1 = false ->
  has_bar w c1 = false -> has_bar w e1 = false ->
  has_bar w n2 = false -> has_bar w t2 = false ->
  has_bar w c2 = false -> has_bar w e2 = false ->
  format_gate w n1 t1 c1 e1 = format_gate w n2 t2 c2 e2 ->
  Py.str w n1 = Py.str w n2 /\ Py.str w t1 = Py.str w t2
  /\ Py.str w c1 = Py.str w c2 /\ Py.str w e1 = Py.str w e2.
Proof.
  intros Hn1 Ht1 Hc1 He1 Hn2 Ht2 Hc2 He2.
  apply has_bar_text in Hn1 as (a1 & Ha1 & Hn1).
  apply has_bar_text in Ht1 as (b1 & Hb1 & Ht1).
  apply has_bar_text in Hc1 as (x1 & Hx1 & Hc1).
  apply has_bar_text in He1 as (d1 & Hd1 & _).
  apply has_bar_text in Hn2 as (a2 & Ha2 & Hn2).
  apply has_bar_text in Ht2 as (b2 & Hb2 & Ht2).
  apply has_bar_text in Hc2 as (x2 & Hx2 & Hc2).
  apply has_bar_text in He2 as (d2 & Hd2 & _).
  unfold format_gate.
  rewrite Ha1, Ha2, Hb1, Hb2, Hx1, Hx2, Hd1, Hd2. cbn.
  intros Heq. injection Heq as Heq.
  apply cut_at_bar in Heq as [-> Heq]; [|assumption|assumption].
  apply cut_at_bar in Heq as [-> Heq]; [|assumption|assumption].
  apply cut_at_bar in Heq as [-> ->]; [|assumption|assumption].
  now repeat split.
Qed.

(** C8, as the specification states it, fails: the integer 0 and the
    string 0 are different values of the last field, neither text holds a
    bar, and the two records give the same line. *)
Lemma format_gate_not_injective_on_values :
  (VStr "Build", VStr "command", VStr "make", VInt 0)
  <> (VStr "Build", VStr "command", VStr "make", VStr "0")
  /\ has_bar (world_of VNone) (VStr "Build") = false
  /\ has_bar (world_of VNone) (VStr "command") = false
  /\ has_bar (world_of VNone) (VStr "make") = false
  /\ has_bar (world_of VNone) (VInt 0) = false
  /\ has_bar (world_of VNone) (VStr "0") = false
  /\ format_gate (world_of VNone)
                 (VStr "Build") (VStr "command") (VStr "make") (VInt 0)
     = Returns "Build|command|make|0"
  /\ format_gate (world_of VNone)
                 (VStr "Build") (VStr "command") (VStr "make") (VStr "0")
     = Returns "Build|command|make|0".
Proof.
  split; [discriminate|]. repeat split; reflexivity.
Qed.

(** C8, amended.  The format is injective on the texts of the fields:
    when no text of either record holds a bar and the two records differ
    in the text of at least one field, their lines differ. *)
Theorem format_gate_injective_on_texts w n1 t1 c1 e1 n2 t2 c2 e2 :
  has_bar w n1 = false -> has_bar w t1 = false ->
  has_bar w c1 = false -> has_bar w e1 = false ->
  has_bar w n2 = false -> has_bar w t2 = false ->
  has_bar w c2 = false -> has_bar w e2 = false ->
  (Py.str w n1, Py.str w t1, Py.str w c1, Py.str w e1)
  <> (Py.str w n2, Py.str w t2, Py.str w c2, Py.str w e2) ->
  format_gate w n1 t1 c1 e1 <> format_gate w n2 t2 c2 e2.
Proof.
  intros Hn1 Ht1 Hc1 He1 Hn2 Ht2 Hc2 He2 Hdiff Heq. apply Hdiff.
  destruct (format_gate_inj w n1 t1 c1 e1 n2 t2 c2 e2)
    as (-> & -> & -> & ->); try assumption.
  reflexivity.
Qed.

Lemma format_gate_injective_on_texts_witness :
  format_gate (world_of VNone)
              (VStr "Build") (VStr "command") (VStr "make") (VInt 0)
  <> format_gate (world_of VNone)
                 (VStr "Build") (VStr "script") (VStr "make") (VInt 2).
Proof.
  apply (format_gate_injective_on_texts
           (world_of VNone)
           (VStr "Build") (VStr "command") (VStr "make") (VInt 0)
           (VStr "Build") (VStr "script") (VStr "make") (VInt 2));
    try reflexivity.
  discriminate.
Defined.

(** ** All or nothing *)



(** ** Runs under another hash seed *)







Lemma scalars_set_free (l : list scalar) :
  forallb entry_set_free (map VScalar l) = true.
Proof. induction l; [reflexivity|exact IHl]. Qed.






(** The [try] block on a truthy document that is no mapping. *)
Lemma body_not_mapping w path text data c :
  open_file w path = Opened text ->
  safe_load w text = Loaded data ->
  is_mapping data = false ->
  Py.truthy data = true ->
  extract_gates_body w path c
  = (Raises (AttributeError
               ("'" ++ Py.type_name data ++ "' object has no attribute 'get'")),
     c).
Proof.
  intros Hopen Hload Hdata Htruthy.
  rewrite (body_loaded _ _ _ _ _ Hopen Hload), Htruthy. cbn [negb].
  destruct data as [x|l|l|entry|l]; try discriminate; reflexivity.
Qed.




(** ** Further properties of the run *)

(** X1. When the file opens but the parser raises a YAML error, the
    process prints [Error: Invalid YAML: <message>] on the diagnostic
    stream, nothing on standard output, and exits with status 0. *)
Theorem malformed_yaml_is_reported w prog path rest text msg :
  open_file w path = Opened text ->
  safe_load w text = Malformed msg ->
  run_process w (prog :: path :: rest)
  = Process 0 "" ("Error: Invalid YAML: " ++ msg ++ nl).
Proof.
  intros Hopen Hload. apply run_process_diagnostic.
  now rewrite (extract_gates_malformed _ _ _ _ _ Hopen Hload).
Qed.

Lemma malformed_yaml_is_reported_witness :
  run_process (world_with (Opened "gates: [") (Malformed "expected ']'"))
              ["extract-gates.py"; "story.yaml"]
  = Process 0 "" ("Error: Invalid YAML: expected ']'" ++ nl).
Proof.
  apply (malformed_yaml_is_reported
           (world_with (Opened "gates: [") (Malformed "expected ']'"))
           "extract-gates.py" "story.yaml" [] "gates: [" "expected ']'");
    reflexivity.
Defined.

(** X2. When opening the file fails with an exception other than file not
    found, or reading it fails with an exception that is no YAML error,
    the catch-all clause prints [Error: <message>]; standard output stays
    empty and the exit status is 0. *)
Theorem other_failures_are_reported w prog path rest msg :
  open_file w path = OpenFails msg
  \/ (exists text, open_file w path = Opened text
                   /\ safe_load w text = LoadFails msg) ->
  run_process w (prog :: path :: rest) = Process 0 "" ("Error: " ++ msg ++ nl).
Proof.
  intros [Hopen|(text & Hopen & Hload)]; apply run_process_diagnostic.
  - now rewrite (extract_gates_open_fails _ _ _ _ Hopen).
  - now rewrite (extract_gates_load_fails _ _ _ _ _ Hopen Hload).
Qed.

Lemma other_failures_are_reported_witness :
  run_process (world_with (OpenFails "[Errno 13] Permission denied")
                          (Loaded VNone))
              ["extract-gates.py"; "story.yaml"]
  = Process 0 "" ("Error: [Errno 13] Permission denied" ++ nl).
Proof.
  apply (other_failures_are_reported
           (world_with (OpenFails "[Errno 13] Permission denied")
                       (Loaded VNone))
           "extract-gates.py" "story.yaml" []
           "[Errno 13] Permission denied").
  left. reflexivity.
Defined.

(** X3. A document that is not a mapping never yields a gate.  When it is
    falsy (null, false, 0, an empty string, list or set) the test of
    line 17 returns the empty list silently; when it is truthy the lookup
    of line 20 raises and the handler reports that the value has no
    attribute get. *)
Theorem document_not_a_mapping w path text data c :
  open_file w path = Opened text ->
  safe_load w text = Loaded data ->
  is_mapping data = false ->
  extract_gates w path c
  = (Returns [],
     Console (stdout c)
             (stderr c ++
                (if Py.truthy data
                 then "Error: '" ++ Py.type_name data
                        ++ "' object has no attribute 'get'" ++ nl
                 else ""))).
Proof.
  intros Hopen Hload Hdata.
  destruct (Py.truthy data) eqn:Htruthy.
  - rewrite (extract_gates_recovers _ _ _ _
               (body_not_mapping w path text data c Hopen Hload Hdata Htruthy));
      [|discriminate].
    cbn. now rewrite !append_assoc.
  - rewrite (falsy_document_no_gates _ _ _ _ _ Hopen Hload Htruthy).
    destruct c; cbn. now rewrite append_empty.
Qed.

Lemma document_not_a_mapping_witness :
  extract_gates (world_of (VList [gate_build])) "story.yaml" empty_console
  = (Returns [],
     Console "" ("Error: 'list' object has no attribute 'get'" ++ nl)).
Proof.
  apply (document_not_a_mapping (world_of (VList [gate_build]))
                                "story.yaml" "text" (VList [gate_build])
                                empty_console); reflexivity.
Defined.



(** X5. Whatever the arguments, the files and the parser: a run without
    a path exits with status 1; a run that exits with status 0 was given
    a path and did not write to both standard output and the diagnostic
    stream: gate lines and a diagnostic never come together in a run
    that succeeds. *)
Theorem run_never_mixes_streams w argv :
  ((List.length argv < 2)%nat -> exit_status (run_process w argv) = 1%Z)
  /\ (exit_status (run_process w argv) = 0%Z ->
      (2 <= List.length argv)%nat
      /\ (output (run_process w argv) = ""
          \/ diagnostics (run_process w argv) = "")).
Proof.
  destruct argv as [|prog [|path rest]].
  - cbn. repeat split; intros; try lia; try discriminate.
  - cbn. repeat split; intros; try lia; try discriminate.
  - destruct (extract_gates_total w path) as (results & diag & Hrun & Hdiag).
    unfold run_process, main. cbn [List.length Nat.ltb Nat.leb nth].
    unfold bind. rewrite Hrun. cbn [stdout stderr empty_console].
    destruct (print_all_outcome w results (Console "" ("" ++ diag)))
      as [Hok|(msg & text & Hraise)].
    + rewrite Hok. cbn.
      split; [intros; lia|]. intros _.
      split; [lia|].
      destruct Hdiag as [->|[-> _]]; [now right|now left].
    + rewrite Hraise. cbn.
      split; [reflexivity|discriminate].
Qed.

(** X6. A document that is a mapping without the key [verification], or
    whose verification mapping has no key [gates] or an empty sequence
    under it, makes the process print nothing at all and exit with 0. *)
Theorem no_gates_prints_nothing w prog path rest text doc :
  open_file w path = Opened text ->
  safe_load w text = Loaded (VDict doc) ->
  Py.dict_lookup doc "verification" = None
  \/ (exists verification,
         Py.dict_lookup doc "verification" = Some (VDict verification)
         /\ (Py.dict_lookup verification "gates" = None
             \/ Py.dict_lookup verification "gates" = Some (VList []))) ->
  run_process w (prog :: path :: rest) = Process 0 "" "".
Proof.
  intros Hopen Hload Hcase. apply run_process_diagnostic.
  apply extract_gates_returns.
  destruct Hcase as [Hver|(verification & Hver & [Hgates|Hgates])].
  - now apply (body_verification_absent w path text doc).
  - now apply (body_gates_absent w path text doc verification).
  - rewrite (body_gates _ _ _ _ _ _ _ Hopen Hload Hver Hgates). reflexivity.
Qed.

Lemma no_gates_prints_nothing_witness :
  run_process (world_of (VDict [(SStr "title", VStr "Story")]))
              ["extract-gates.py"; "story.yaml"]
  = Process 0 "" "".
Proof.
  apply (no_gates_prints_nothing
           (world_of (VDict [(SStr "title", VStr "Story")]))
           "extract-gates.py" "story.yaml" [] "text"
           [(SStr "title", VStr "Story")]).
  - reflexivity.
  - reflexivity.
  - left. reflexivity.
Defined.

(** X7. The loop reads four keys of an entry and nothing else: two
    mapping entries that agree on name, type, command and expected_exit
    (bound to the same value, or absent in both) are interchangeable,
    whatever other keys they hold and in whatever order. *)
Theorem only_four_keys_are_read w entry1 entry2 rest results c :
  (forall key, In key ["name"; "type"; "command"; "expected_exit"] ->
               Py.dict_lookup entry1 key = Py.dict_lookup entry2 key) ->
  for_gates w (VDict entry1 :: rest) results c
  = for_gates w (VDict entry2 :: rest) results c.
Proof.
  intros Hagree. rewrite !for_gates_mapping.
  unfold gate_line, field.
  rewrite (Hagree "name"), (Hagree "type"), (Hagree "command"),
    (Hagree "expected_exit"); cbn; auto 6.
Qed.

Lemma only_four_keys_are_read_witness :
  for_gates (world_of VNone)
            [VDict [(SStr "owner", VStr "qa"); (SStr "name", VStr "Build");
                    (SInt 7, VNone)]]
            [] empty_console
  = for_gates (world_of VNone)
              [VDict [(SStr "name", VStr "Build")]] [] empty_console.
Proof.
  apply (only_four_keys_are_read
           (world_of VNone)
           [(SStr "owner", VStr "qa"); (SStr "name", VStr "Build");
            (SInt 7, VNone)]
           [(SStr "name", VStr "Build")] [] [] empty_console).
  intros key [<-|[<-|[<-|[<-|[]]]]]; reflexivity.
Defined.

(** ** Separators in a line *)

Lemma count_bar_app (a b : string) :
  count_bar (a ++ b) = (count_bar a + count_bar b)%nat.
Proof.
  induction a as [|x a IH]; cbn; [reflexivity|]. rewrite IH. lia.
Qed.

Lemma count_bar_free (s : string) :
  Py.contains_char "|" s = false -> count_bar s = 0%nat.
Proof.
  induction s as [|x s IH]; cbn; [reflexivity|].
  intros H. apply orb_false_elim in H as [Hx Hs].
  rewrite Hx, (IH Hs). reflexivity.
Qed.

(** The decimal digits of a number hold no bar. *)
Lemma count_bar_digits (d : Decimal.uint) :
  count_bar (NilEmpty.string_of_uint d) = 0%nat.
Proof.
  induction d; cbn; auto.
Qed.

Lemma count_bar_str_int w (n : Z) text :
  Py.str_int w n = Returns text -> count_bar text = 0%nat.
Proof.
  unfold Py.str_int. destruct (_ && _); [discriminate|].
  intros H. injection H as <-.
  unfold NilZero.string_of_int, NilZero.string_of_uint.
  destruct (Z.to_int n) as [d|d]; destruct d; cbn;
    try reflexivity; apply count_bar_digits.
Qed.

(** X8. A line holds the three separators of the format plus the bars of
    its fields, which are interpolated without escaping: each bar inside
    a field shows up as one more separator. *)
Theorem format_gate_bar_count
    w (name gate_type command expected_exit : value) line :
  format_gate w name gate_type command expected_exit = Returns line ->
  count_bar line
  = (3 + bars w name + bars w gate_type + bars w command
     + bars w expected_exit)%nat.
Proof.
  intros Hline. unfold bars.
  apply format_gate_returns in Hline
    as (a & b & c & d & -> & -> & -> & -> & ->).
  rewrite !count_bar_app. cbn. lia.
Qed.

Lemma format_gate_bar_count_witness :
  count_bar "a|b|Build|make all|0"
  = (3 + bars (world_of VNone) (VStr "a|b") + bars (world_of VNone) (VStr "Build")
     + bars (world_of VNone) (VStr "make all")
     + bars (world_of VNone) (VInt 0))%nat.
Proof.
  apply (format_gate_bar_count (world_of VNone)
           (VStr "a|b") (VStr "Build") (VStr "make all") (VInt 0)
           "a|b|Build|make all|0").
  reflexivity.
Defined.

(** X9. For a record of the documented types (name, type and command
    strings without a bar, expected_exit an integer of either sign) every
    line the format produces holds exactly three bars, so that it splits
    into four fields. *)
Theorem documented_record_has_three_bars
    w (name gate_type command : string) (expected_exit : Z) line :
  Py.contains_char "|" name = false ->
  Py.contains_char "|" gate_type = false ->
  Py.contains_char "|" command = false ->
  format_gate w (VStr name) (VStr gate_type) (VStr command)
              (VInt expected_exit) = Returns line ->
  count_bar line = 3%nat.
Proof.
  intros Hn Ht Hc Hline.
  apply format_gate_returns in Hline
    as (a & b & c & d & Ha & Hb & Hx & Hd & ->).
  cbn in Ha, Hb, Hx, Hd.
  injection Ha as <-. injection Hb as <-. injection Hx as <-.
  rewrite !count_bar_app. cbn.
  rewrite (count_bar_free _ Hn), (count_bar_free _ Ht), (count_bar_free _ Hc),
    (count_bar_str_int w expected_exit d Hd). reflexivity.
Qed.

Lemma documented_record_has_three_bars_witness :
  count_bar "Lint|script|run-lint.sh|-1" = 3%nat.
Proof.
  apply (documented_record_has_three_bars (world_of VNone)
           "Lint" "script" "run-lint.sh" (-1) "Lint|script|run-lint.sh|-1");
    reflexivity.
Defined.

(** ** Which entry and which shape a diagnostic reports *)



(** X11. What a value under [gates] that is no sequence leads to: a
    mapping is iterated by its keys, a set by its elements, a string by
    its characters and a byte string by its bytes, so a non-empty one is
    reported through its first key, element, character or byte, which
    has no attribute get; null, a boolean, a number or a date is reported
    as not iterable; the empty mapping, set, string and byte string pass
    silently. *)
Theorem gates_not_a_sequence_diagnostic
    w path text doc verification g c :
  open_file w path = Opened text ->
  safe_load w text = Loaded (VDict doc) ->
  Py.dict_lookup doc "verification" = Some (VDict verification) ->
  Py.dict_lookup verification "gates" = Some g ->
  is_sequence g = false ->
  extract_gates w path c
  = (Returns [],
     Console (stdout c)
       (stderr c ++
          match g with
          | VDict [] => ""
          | VDict ((k, _) :: _) =>
              "Error: '" ++ Py.type_name (VScalar k)
                ++ "' object has no attribute 'get'" ++ nl
          | VSet elements =>
              match set_order w elements with
              | [] => ""
              | k :: _ =>
                  "Error: '" ++ Py.type_name (VScalar k)
                    ++ "' object has no attribute 'get'" ++ nl
              end
          | VStr EmptyString => ""
          | VStr (String _ _) =>
              "Error: 'str' object has no attribute 'get'" ++ nl
          | VBytes EmptyString => ""
          | VBytes (String _ _) =>
              "Error: 'int' object has no attribute 'get'" ++ nl
          | _ => "Error: '" ++ Py.type_name g ++ "' object is not iterable"
                   ++ nl
          end)).
Proof.
  intros Hopen Hload Hver Hgates Hg.
  pose proof (body_gates _ _ _ _ _ _ c Hopen Hload Hver Hgates) as Hbody.
  assert (Hnil : (Returns (@nil string), c)
                 = (Returns [], Console (stdout c) (stderr c ++ ""))).
  { destruct c; cbn. now rewrite append_empty. }
  destruct g as [[ |b|n|r|[|a s]|[|a b]|t r|t r]| l | l |[|[k v] d]|l];
    try discriminate;
    try (rewrite <- Hnil; apply extract_gates_returns; exact Hbody);
    try (rewrite (extract_gates_recovers _ _ _ _ Hbody);
         [reflexivity|discriminate]).
  - destruct (chars_nonempty a s) as (first & rest & Hchars).
    unfold bind, py_iter, ret in Hbody. rewrite Hchars in Hbody.
    rewrite (extract_gates_recovers _ _ _ _ Hbody);
      [reflexivity|discriminate].
  - rewrite (extract_gates_recovers _ _ _ _ Hbody); [|discriminate].
    cbn. now rewrite !append_assoc.
  - unfold bind, py_iter, ret in Hbody.
    destruct (set_order w l) as [|k rest].
    + rewrite <- Hnil. apply extract_gates_returns. exact Hbody.
    + rewrite (extract_gates_recovers _ _ _ _ Hbody); [|discriminate].
      cbn. now rewrite !append_assoc.
Qed.

Lemma gates_not_a_sequence_diagnostic_witness :
  extract_gates
    (world_of (story (VDict [(SStr "build", gate_build)])))
    "story.yaml" empty_console
  = (Returns [],
     Console "" ("Error: 'str' object has no attribute 'get'" ++ nl)).
Proof.
  apply (gates_not_a_sequence_diagnostic
           (world_of (story (VDict [(SStr "build", gate_build)])))
           "story.yaml" "text"
           [(SStr "title", VStr "Story");
            (SStr "verification",
             VDict [(SStr "gates", VDict [(SStr "build", gate_build)])])]
           [(SStr "gates", VDict [(SStr "build", gate_build)])]
           (VDict [(SStr "build", gate_build)]) empty_console); reflexivity.
Defined.


